(** * PosixAbstractThread: lifecycle and signal operations of a thread wrapper

    A shallow embedding of [src/PosixAbstractThread.cpp] (namespace onposix).

    Every method of the class is a short sequence of reads and writes of the
    two data members and of calls into the C library.  The methods are
    embedded as programs over a signature of those calls; a program is run
    against an operating system given as a handler.  Theorems that only
    depend on the control flow of a method are proved for every handler;
    theorems that depend on what the C library does are proved for the
    handler [Posix.os], written from the POSIX descriptions of the calls. *)

From Stdlib Require Import ZArith List Bool String Lia.
Import ListNotations.
Local Open Scope Z_scope.

(** ** Data *)

(** [pthread_t], [int] and [sigset_t].  A signal set is a bit mask: signal
    number [s] (from 1 to 64) is bit [s - 1]. *)
Definition pthread_t := Z.
Definition sigset_t := Z.

(** [struct sigaction], the members the code can reach. *)
Record struct_sigaction := mk_sigaction {
  sa_handler : Z;          (* the handler function pointer, as an address *)
  sa_mask : sigset_t;
  sa_flags : Z
}.

(** The data members of the class. *)
Record PosixAbstractThread := mk_thread {
  isStarted_ : bool;
  handle_ : pthread_t
}.

Definition set_isStarted_ (b : bool) (th : PosixAbstractThread) :=
  {| isStarted_ := b; handle_ := handle_ th |}.
Definition set_handle_ (h : pthread_t) (th : PosixAbstractThread) :=
  {| isStarted_ := isStarted_ th; handle_ := h |}.

(** Severity of a log line; the code only uses [DBG_ERROR]. *)
Inductive debug_level := DBG_ERROR.

(** Constants of <pthread.h> and <signal.h> (Linux values). *)
Definition PTHREAD_CANCEL_ENABLE := 0.
Definition PTHREAD_CANCEL_DISABLE := 1.
Definition SIG_BLOCK := 0.
Definition SIG_UNBLOCK := 1.
Definition SIG_SETMASK := 2.
Definition SIGKILL := 9.
Definition SIGUSR1 := 10.
Definition SIGSTOP := 19.
Definition SIGCANCEL := 32.      (* kept by the thread library *)
Definition SIGSETXID := 33.      (* kept by the thread library *)
Definition NSIG := 65.
Definition ESRCH := 3.
Definition EAGAIN := 11.
Definition EINVAL := 22.
Definition EDEADLK := 35.

(** ** Calls out of the class

    One constructor per external function the code calls, indexed by the type
    of what the call hands back.  Arguments that the code always passes as
    [NULL] are left out. *)
Inductive syscall : Type -> Type :=
| pthread_setcancelstate (state : Z) : syscall Z
    (* pthread_setcancelstate(state, NULL) *)
| virtual_run : syscall unit
    (* th->run(), the pure virtual method of the subclass *)
| pthread_create : syscall (Z * option pthread_t)
    (* pthread_create(&handle_, NULL, Execute, this): the return code, and
       what the call stored through its first argument, if anything *)
| pthread_cancel (thread : pthread_t) : syscall Z
| pthread_join (thread : pthread_t) : syscall Z
    (* pthread_join(thread, NULL) *)
| pthread_sigmask (how : Z) (set : sigset_t) : syscall Z
    (* pthread_sigmask(how, &set, NULL) *)
| pthread_kill (thread : pthread_t) (sig : Z) : syscall Z
| sigprocmask (how : Z) (set : sigset_t) : syscall (Z * sigset_t)
    (* sigprocmask(how, &set, &oldset): the return code and the previous
       mask; a caller that passes NULL for oldset drops the second part *)
| sigaction (sig : Z) (act : struct_sigaction) : syscall Z
    (* sigaction(sig, &act, NULL) *)
| DEBUG (level : debug_level) (msg : string) (sig : Z) : syscall unit.
    (* DEBUG(level, msg << sig) *)

(** ** Programs *)

(** A method body: it returns, reads or replaces the object it is called on
    ([this]), or makes a call and goes on with the result. *)
Inductive prog (A : Type) : Type :=
| Ret (a : A)
| Get (k : PosixAbstractThread -> prog A)
| Put (this : PosixAbstractThread) (k : prog A)
| Sys {R : Type} (c : syscall R) (k : R -> prog A).

Arguments Ret {A} a.
Arguments Get {A} k.
Arguments Put {A} this k.
Arguments Sys {A R} c k.

Fixpoint bind {A B : Type} (p : prog A) (f : A -> prog B) : prog B :=
  match p with
  | Ret a => f a
  | Get k => Get (fun this => bind (k this) f)
  | Put this k => Put this (bind k f)
  | Sys c k => Sys c (fun r => bind (k r) f)
  end.

Declare Scope prog_scope.
Delimit Scope prog_scope with prog.
Bind Scope prog_scope with prog.
Notation "x <- p ;; q" := (bind p (fun x => q))
  (at level 61, p at next level, right associativity) : prog_scope.
Notation "' pat <- p ;; q" := (bind p (fun x => match x with pat => q end))
  (at level 61, pat pattern, p at next level, right associativity) : prog_scope.
Notation "p ;; q" := (bind p (fun _ => q))
  (at level 61, right associativity) : prog_scope.
Local Open Scope prog_scope.

Definition call {R : Type} (c : syscall R) : prog R := Sys c Ret.
Definition load_isStarted_ : prog bool := Get (fun this => Ret (isStarted_ this)).
Definition load_handle_ : prog pthread_t := Get (fun this => Ret (handle_ this)).
Definition store_isStarted_ (b : bool) : prog unit :=
  Get (fun this => Put (set_isStarted_ b this) (Ret tt)).
Definition store_handle_ (h : pthread_t) : prog unit :=
  Get (fun this => Put (set_handle_ h this) (Ret tt)).
Definition skip : prog unit := Ret tt.

(** ** <signal.h> set operations

    These work on the caller's own [sigset_t] and touch nothing else.  Each
    gives its return code and the set it leaves behind; [sigemptyset] and
    [sigfillset] overwrite the set without reading it.  A signal number an
    application can name is one from 1 to 64 that the thread library does
    not keep for itself: [sigaddset] refuses 32 and 33 like a number out of
    range. *)
Definition valid_signal (sig : Z) : bool :=
  (0 <? sig) && (sig <? NSIG)
  && negb (sig =? SIGCANCEL) && negb (sig =? SIGSETXID).
Definition sigbit (sig : Z) : sigset_t := Z.shiftl 1 (sig - 1).

Definition sigemptyset : Z * sigset_t := (0, 0).
Definition sigfillset : Z * sigset_t := (0, Z.ones 64).
Definition sigaddset (m : sigset_t) (sig : Z) : Z * sigset_t :=
  if valid_signal sig then (0, Z.lor m (sigbit sig)) else (-1, m).
Definition sigismember (m : sigset_t) (sig : Z) : bool := Z.testbit m (sig - 1).

(** [bzero(&sa, sizeof(sa))]: every member is zero afterwards. *)
Definition bzero_sigaction : struct_sigaction :=
  {| sa_handler := 0; sa_mask := 0; sa_flags := 0 |}.
Definition set_sa_handler (h : Z) (sa : struct_sigaction) : struct_sigaction :=
  {| sa_handler := h; sa_mask := sa_mask sa; sa_flags := sa_flags sa |}.

(** ** The class *)

(** The constructor initialises [isStarted_] only: [handle_] keeps whatever
    the storage of the object held, here [indeterminate]. *)
Definition constructor (indeterminate : pthread_t) : PosixAbstractThread :=
  {| isStarted_ := false; handle_ := indeterminate |}.

(** [Execute(param)], the entry point passed to [pthread_create]; [th] is
    [param] cast back, the object [run] is called on. *)
Definition Execute : prog Z :=
  _ <- call (pthread_setcancelstate PTHREAD_CANCEL_ENABLE) ;;
  call virtual_run ;;
  Ret 0.

Definition start : prog bool :=
  started <- load_isStarted_ ;;
  if started then Ret true else
  '(rc, written) <- call pthread_create ;;
  match written with Some h => store_handle_ h | None => skip end ;;
  (if rc =? 0 then store_isStarted_ true else skip) ;;
  load_isStarted_.

Definition stop : prog bool :=
  started <- load_isStarted_ ;;
  if negb started then Ret false else
  store_isStarted_ false ;;
  h <- load_handle_ ;;
  rc <- call (pthread_cancel h) ;;
  if rc =? 0 then Ret true else Ret false.

Definition waitForTermination : prog bool :=
  h <- load_handle_ ;;
  rc <- call (pthread_join h) ;;
  if rc =? 0 then Ret true else Ret false.

Definition blockSignal (sig : Z) : prog bool :=
  let m := snd sigemptyset in
  let m := snd (sigaddset m sig) in
  rc <- call (pthread_sigmask SIG_BLOCK m) ;;
  if negb (rc =? 0) then
    call (DEBUG DBG_ERROR "Error: can't mask signal " sig) ;;
    Ret false
  else Ret true.

Definition unblockSignal (sig : Z) : prog bool :=
  let m := snd sigemptyset in
  let m := snd (sigaddset m sig) in
  rc <- call (pthread_sigmask SIG_UNBLOCK m) ;;
  if negb (rc =? 0) then
    call (DEBUG DBG_ERROR "Error: can't unmask signal " sig) ;;
    Ret false
  else Ret true.

Definition sendSignal (sig : Z) : prog bool :=
  h <- load_handle_ ;;
  rc <- call (pthread_kill h sig) ;;
  if negb (rc =? 0) then
    call (DEBUG DBG_ERROR "Error: can't send signal " sig) ;;
    Ret false
  else Ret true.

(** [oldset] is read only after the first [sigprocmask] has filled it. *)
Definition setSignalHandler (sig : Z) (handler : Z) : prog bool :=
  let ret := true in
  let set := snd sigfillset in
  '(_, oldset) <- call (sigprocmask SIG_SETMASK set) ;;
  let sa := bzero_sigaction in
  let sa := set_sa_handler handler sa in
  rc <- call (sigaction sig sa) ;;
  ret <- (if rc <? 0 then
            call (DEBUG DBG_ERROR "Error: can't set signal " sig) ;;
            Ret false
          else Ret ret) ;;
  call (sigprocmask SIG_SETMASK oldset) ;;
  Ret ret.

(** ** Running a program *)

(** An operating system: its state, and what each call returns and does to
    that state.  [None] is a call that never returns to its caller. *)
Record OS := mk_OS {
  world : Type;
  exec : forall R : Type, syscall R -> world -> option (R * world)
}.
Arguments exec o {R} _ _.

(** What an observer of the calls sees: the object as it was when the call
    was made, the call, and its result if it returned. *)
Inductive event : Type :=
| Ev (this : PosixAbstractThread) {R : Type} (c : syscall R) (r : option R).

Definition trace := list event.

(** [run os p this w] is the list of calls [p] makes, in order, and, when
    [p] returns, its result with the object and the world it leaves. *)
Fixpoint run (os : OS) {A : Type} (p : prog A) (this : PosixAbstractThread)
    (w : world os) : trace * option (A * PosixAbstractThread * world os) :=
  match p with
  | Ret a => ([], Some (a, this, w))
  | Get k => run os (k this) this w
  | Put this' k => run os k this' w
  | Sys c k =>
      match exec os c w with
      | None => ([Ev this c None], None)
      | Some (r, w') =>
          let (t, out) := run os (k r) this w' in
          (Ev this c (Some r) :: t, out)
      end
  end.

(** Calls of [pthread_create] that returned 0: the native threads created. *)
Definition created_by (e : event) : nat :=
  match e with
  | Ev _ c r =>
      match c in syscall R return option R -> nat with
      | pthread_create => fun r =>
          match r with
          | Some (rc, _) => if rc =? 0 then 1%nat else 0%nat
          | None => 0%nat
          end
      | _ => fun _ => 0%nat
      end r
  end.

Fixpoint created (t : trace) : nat :=
  match t with
  | [] => 0%nat
  | e :: t' => (created_by e + created t')%nat
  end.

(** The native threads the object counts as its own: one when started. *)
Definition associated (th : PosixAbstractThread) : nat :=
  if isStarted_ th then 1%nat else 0%nat.

(** [n] calls of [start()] in a row, with their results. *)
Fixpoint starts (n : nat) : prog (list bool) :=
  match n with
  | O => Ret []
  | S n' => r <- start ;; rs <- starts n' ;; Ret (r :: rs)
  end.

(** ** A POSIX handler

    The calls as POSIX describes them, seen from one calling thread.  What
    POSIX leaves open is fixed as Linux does: ids of joined threads are
    handed out again, [sigprocmask] works on the mask of the calling thread,
    and signals 32 and 33 are refused.  What a call does with a handle that
    names no thread is undefined: the state says what happens ([stale]). *)
Module Posix.

Record thread := mk_thr {
  blocked : sigset_t;          (* the signal mask *)
  pending : sigset_t;          (* signals sent and not yet handled *)
  cancel_enabled : bool;       (* cancelability state *)
  cancel_async : bool;         (* cancelability type: asynchronous or deferred *)
  cancel_requested : bool;
  detached : bool;
  finishes : bool;             (* left alone, its entry point returns at some time *)
  cancel_points : bool         (* it reaches a cancellation point again and again *)
}.

Record state := mk_state {
  self : pthread_t;                            (* the calling thread *)
  me : thread;
  others : list (pthread_t * thread);          (* the other threads alive or not yet joined *)
  dispositions : list (Z * struct_sigaction);  (* handlers installed, latest first *)
  max_threads : nat;                           (* pthread_create fails beyond these *)
  body_finishes : bool;                        (* run() of the subclass returns *)
  body_cancel_points : bool;                   (* run() keeps reaching cancellation points *)
  stale : option Z;                            (* the answer to a handle that names no
                                                  thread; None: the process dies there *)
  log : list (debug_level * string * Z)
}.

Definition set_me (t : thread) (w : state) : state :=
  mk_state (self w) t (others w) (dispositions w) (max_threads w)
           (body_finishes w) (body_cancel_points w) (stale w) (log w).
Definition set_others (l : list (pthread_t * thread)) (w : state) : state :=
  mk_state (self w) (me w) l (dispositions w) (max_threads w)
           (body_finishes w) (body_cancel_points w) (stale w) (log w).
Definition set_dispositions (d : list (Z * struct_sigaction)) (w : state) : state :=
  mk_state (self w) (me w) (others w) d (max_threads w)
           (body_finishes w) (body_cancel_points w) (stale w) (log w).
Definition set_log (l : list (debug_level * string * Z)) (w : state) : state :=
  mk_state (self w) (me w) (others w) (dispositions w) (max_threads w)
           (body_finishes w) (body_cancel_points w) (stale w) l.

Definition set_blocked (m : sigset_t) (t : thread) : thread :=
  mk_thr m (pending t) (cancel_enabled t) (cancel_async t)
         (cancel_requested t) (detached t) (finishes t) (cancel_points t).
Definition set_pending (m : sigset_t) (t : thread) : thread :=
  mk_thr (blocked t) m (cancel_enabled t) (cancel_async t)
         (cancel_requested t) (detached t) (finishes t) (cancel_points t).
Definition set_cancel_enabled (b : bool) (t : thread) : thread :=
  mk_thr (blocked t) (pending t) b (cancel_async t)
         (cancel_requested t) (detached t) (finishes t) (cancel_points t).
Definition set_cancel_requested (b : bool) (t : thread) : thread :=
  mk_thr (blocked t) (pending t) (cancel_enabled t) (cancel_async t)
         b (detached t) (finishes t) (cancel_points t).

Fixpoint lookup (h : pthread_t) (l : list (pthread_t * thread)) : option thread :=
  match l with
  | [] => None
  | (h', t) :: l' => if h' =? h then Some t else lookup h l'
  end.

Fixpoint update (h : pthread_t) (t : thread) (l : list (pthread_t * thread)) :=
  match l with
  | [] => []
  | (h', t') :: l' => if h' =? h then (h', t) :: l' else (h', t') :: update h t l'
  end.

Fixpoint remove (h : pthread_t) (l : list (pthread_t * thread)) :=
  match l with
  | [] => []
  | (h', t') :: l' => if h' =? h then remove h l' else (h', t') :: remove h l'
  end.

(** The thread a handle names, if any. *)
Definition find_thread (h : pthread_t) (w : state) : option thread :=
  if h =? self w then Some (me w) else lookup h (others w).

Definition put_thread (h : pthread_t) (t : thread) (w : state) : state :=
  if h =? self w then set_me t w else set_others (update h t (others w)) w.

(** The id of the next thread: the least one from 1 that names no thread. *)
Definition in_use (w : state) (h : pthread_t) : bool :=
  match find_thread h w with Some _ => true | None => false end.

Definition fresh_id (w : state) : option pthread_t :=
  find (fun h => negb (in_use w h))
       (map Z.of_nat (seq 1 (S (S (List.length (others w)))))).

(** A new thread inherits the signal mask of its creator, has no signal
    pending, and starts with cancellation enabled and deferred. *)
Definition new_thread (w : state) : thread :=
  mk_thr (blocked (me w)) 0 true false false false
         (body_finishes w) (body_cancel_points w).

(** SIGKILL and SIGSTOP cannot be blocked: they are dropped from a set
    before it changes a mask. *)
Definition unblockable : sigset_t := Z.lor (sigbit SIGKILL) (sigbit SIGSTOP).

Definition change_mask (how : Z) (set old : sigset_t) : option sigset_t :=
  let set := Z.ldiff set unblockable in
  if how =? SIG_BLOCK then Some (Z.lor old set)
  else if how =? SIG_UNBLOCK then Some (Z.ldiff old set)
  else if how =? SIG_SETMASK then Some set
  else None.

Definition do_pthread_setcancelstate (st : Z) (w : state) : Z * state :=
  if st =? PTHREAD_CANCEL_ENABLE then (0, set_me (set_cancel_enabled true (me w)) w)
  else if st =? PTHREAD_CANCEL_DISABLE then (0, set_me (set_cancel_enabled false (me w)) w)
  else (EINVAL, w).

Definition do_pthread_create (w : state) : (Z * option pthread_t) * state :=
  if (List.length (others w) <? max_threads w)%nat then
    match fresh_id w with
    | Some h => ((0, Some h), set_others ((h, new_thread w) :: others w) w)
    | None => ((EAGAIN, None), w)
    end
  else ((EAGAIN, None), w).

(** A call on a handle that names no thread. *)
Definition on_stale (w : state) : option (Z * state) :=
  match stale w with
  | Some rc => Some (rc, w)
  | None => None
  end.

Definition do_pthread_cancel (h : pthread_t) (w : state) : option (Z * state) :=
  match find_thread h w with
  | None => on_stale w
  | Some t => Some (0, put_thread h (set_cancel_requested true t) w)
  end.

(** A thread is over at some time when its entry point returns by itself,
    or when a cancellation request finds it with cancellation enabled and
    either of asynchronous type or on its way to a cancellation point. *)
Definition ends (t : thread) : bool :=
  finishes t
  || (cancel_requested t && cancel_enabled t && (cancel_async t || cancel_points t)).

(** Joining blocks until the thread is over; the thread is gone afterwards. *)
Definition do_pthread_join (h : pthread_t) (w : state) : option (Z * state) :=
  if h =? self w then Some (EDEADLK, w)
  else match lookup h (others w) with
       | None => on_stale w
       | Some t =>
           if detached t then Some (EINVAL, w)
           else if ends t then Some (0, set_others (remove h (others w)) w)
           else None
       end.

Definition do_pthread_sigmask (how : Z) (set : sigset_t) (w : state) : Z * state :=
  match change_mask how set (blocked (me w)) with
  | Some m => (0, set_me (set_blocked m (me w)) w)
  | None => (EINVAL, w)
  end.

(** The signals of the thread library are refused before the handle is
    looked at; any other number is judged once the thread is found.  Signal
    0 only checks the handle. *)
Definition do_pthread_kill (h : pthread_t) (sig : Z) (w : state) : option (Z * state) :=
  if (sig =? SIGCANCEL) || (sig =? SIGSETXID) then Some (EINVAL, w)
  else match find_thread h w with
       | None => on_stale w
       | Some t =>
           if sig =? 0 then Some (0, w)
           else if valid_signal sig
           then Some (0, put_thread h (set_pending (Z.lor (pending t) (sigbit sig)) t) w)
           else Some (EINVAL, w)
       end.

Definition do_sigprocmask (how : Z) (set : sigset_t) (w : state)
    : (Z * sigset_t) * state :=
  match change_mask how set (blocked (me w)) with
  | Some m => ((0, blocked (me w)), set_me (set_blocked m (me w)) w)
  | None => ((-1, blocked (me w)), w)
  end.

Definition do_sigaction (sig : Z) (act : struct_sigaction) (w : state) : Z * state :=
  if valid_signal sig && negb (sig =? SIGKILL) && negb (sig =? SIGSTOP)
  then (0, set_dispositions ((sig, act) :: dispositions w) w)
  else (-1, w).

(** Modelled from the spec: the DEBUG macro of Logger.hpp, which is not part
    of the source file; it hands an error-level message to the logging
    facility, here one more line of [log]. *)
Definition do_DEBUG (level : debug_level) (msg : string) (sig : Z) (w : state) : state :=
  set_log (log w ++ [(level, msg, sig)])%list w.

(** [run()] belongs to the subclass: here a body that touches nothing the
    handler keeps track of, and returns or not as [body_finishes] says. *)
Definition handler (R : Type) (c : syscall R) (w : state) : option (R * state) :=
  match c in syscall R return option (R * state) with
  | pthread_setcancelstate st => Some (do_pthread_setcancelstate st w)
  | virtual_run => if body_finishes w then Some (tt, w) else None
  | pthread_create => Some (do_pthread_create w)
  | pthread_cancel h => do_pthread_cancel h w
  | pthread_join h => do_pthread_join h w
  | pthread_sigmask how set => Some (do_pthread_sigmask how set w)
  | pthread_kill h sig => do_pthread_kill h sig w
  | sigprocmask how set => Some (do_sigprocmask how set w)
  | sigaction sig act => Some (do_sigaction sig act w)
  | DEBUG level msg sig => Some (tt, do_DEBUG level msg sig w)
  end.

Definition os : OS := mk_OS state handler.

(** A process with one thread, nothing blocked, room for four more, whose
    library answers [ESRCH] to a handle that names no thread. *)
Definition idle_thread : thread := mk_thr 0 0 true false false false true true.
Definition boot : state := mk_state 1 idle_thread [] [] 4 true true (Some ESRCH) [].

End Posix.

(** ** Derived programs and predicates used in the statements *)

(** The object after [pthread_create] returned [rc], having stored
    [written] through [&handle_]: what [start()] leaves in [this]. *)
Definition after_create (rc : Z) (written : option pthread_t)
    (th : PosixAbstractThread) : PosixAbstractThread :=
  let th1 := match written with Some h => set_handle_ h th | None => th end in
  if rc =? 0 then set_isStarted_ true th1 else th1.

(** [blockSignal(sig)] immediately followed by [unblockSignal(sig)]. *)
Definition block_then_unblock (sig : Z) : prog (bool * bool) :=
  r1 <- blockSignal sig ;; r2 <- unblockSignal sig ;; Ret (r1, r2).

(** [p] returns [b], whatever calls it makes and whatever it leaves. *)
Definition returns (os : OS) (p : prog bool) (th : PosixAbstractThread)
    (w : world os) (b : bool) : Prop :=
  exists t th' w', run os p th w = (t, Some (b, th', w')).

(** A signal number that a mask can hold. *)
Definition blockable (sig : Z) : bool :=
  valid_signal sig && negb (sig =? SIGKILL) && negb (sig =? SIGSTOP).

(** The signal mask of the calling thread once [p] has returned. *)
Definition mask_after (p : prog (bool * bool)) (th : PosixAbstractThread)
    (w : Posix.state) : option sigset_t :=
  match snd (run Posix.os p th w) with
  | Some (_, _, w') => Some (Posix.blocked (Posix.me w'))
  | None => None
  end.

(** Worlds and objects for the examples. *)
Definition fresh_object : PosixAbstractThread := constructor 77.

Definition second_object : PosixAbstractThread := constructor 0.

(** An object built in storage that still holds the id of thread 2. *)
Definition stale_object : PosixAbstractThread := constructor 2.

(** No thread can be created. *)
Definition exhausted : Posix.state :=
  Posix.mk_state 1 Posix.idle_thread [] [] 0 true true (Some ESRCH) [].

(** SIGUSR1 is blocked in the calling thread. *)
Definition usr1_blocked : Posix.state :=
  Posix.set_me (Posix.set_blocked (sigbit SIGUSR1) Posix.idle_thread) Posix.boot.

(** Thread 2 is running and can be joined. *)
Definition one_worker : Posix.state :=
  Posix.set_others [(2, Posix.idle_thread)] Posix.boot.

(** Two objects used one after the other: the first starts a thread and
    joins it, the second starts a thread, then the first joins again.  The
    results of the two joins of the first object. *)
Definition join_start_join (first second : PosixAbstractThread) (w : Posix.state)
    : option (bool * bool) :=
  match snd (run Posix.os (start ;; waitForTermination) first w) with
  | Some (j1, first', w1) =>
      match snd (run Posix.os start second w1) with
      | Some (_, _, w2) =>
          match snd (run Posix.os waitForTermination first' w2) with
          | Some (j2, _, _) => Some (j1, j2)
          | None => None
          end
      | None => None
      end
  | None => None
  end.

(** An object that [start()] has bound to thread 2. *)
Definition started_object : PosixAbstractThread :=
  {| isStarted_ := true; handle_ := 2 |}.

(** A program that never writes to the object it is called on. *)
Fixpoint no_put {A : Type} (p : prog A) : Prop :=
  match p with
  | Ret _ => True
  | Get k => forall this, no_put (k this)
  | Put _ _ => False
  | Sys c k => forall r, no_put (k r)
  end.

(** Lines handed to the logger. *)
Definition is_log (e : event) : bool :=
  match e with
  | Ev _ c _ => match c with DEBUG _ _ _ => true | _ => false end
  end.

Definition logged (t : trace) : nat := List.length (filter is_log t).

(** The signal mask of the calling thread once [p] has returned. *)
Definition final_mask {A : Type} (p : prog A) (th : PosixAbstractThread)
    (w : Posix.state) : option sigset_t :=
  match snd (run Posix.os p th w) with
  | Some (_, _, w') => Some (Posix.blocked (Posix.me w'))
  | None => None
  end.

(** Sequences of calls a user of the class makes. *)
Definition start_stop_wait : prog (list bool) :=
  a <- start ;; b <- stop ;; c <- waitForTermination ;; Ret [a; b; c].

Definition start_wait_start_stop : prog (list bool) :=
  a <- start ;; b <- waitForTermination ;; c <- start ;; d <- stop ;;
  Ret [a; b; c; d].

Definition start_then_wait : prog (bool * bool) :=
  a <- start ;; b <- waitForTermination ;; Ret (a, b).

(** An operating system that accepts every call and keeps no state; every
    thread it creates has id 5. *)
Definition agreeable : OS :=
  mk_OS unit
    (fun R c _ =>
       match c in syscall R return option (R * unit) with
       | pthread_setcancelstate _ => Some (0, tt)
       | virtual_run => Some (tt, tt)
       | pthread_create => Some ((0, Some 5), tt)
       | pthread_cancel _ => Some (0, tt)
       | pthread_join _ => Some (0, tt)
       | pthread_sigmask _ _ => Some (0, tt)
       | pthread_kill _ _ => Some (0, tt)
       | sigprocmask _ _ => Some ((0, 0), tt)
       | sigaction _ _ => Some (0, tt)
       | DEBUG _ _ _ => Some (tt, tt)
       end).

Definition stop_then_start : prog (bool * bool) :=
  a <- stop ;; b <- start ;; Ret (a, b).


(** ** Running programs: general facts *)

Section AnyOS.

Variable os : OS.

Lemma run_bind (A B : Type) (p : prog A) (f : A -> prog B) :
  forall th w,
    run os (bind p f) th w =
    match run os p th w with
    | (t, None) => (t, None)
    | (t, Some (a, th', w')) =>
        let (t', out) := run os (f a) th' w' in ((t ++ t')%list, out)
    end.
Proof.
  induction p as [a | k IH | this' k IH | R c k IH]; intros th w; simpl.
  - destruct (run os (f a) th w); reflexivity.
  - apply IH.
  - apply IH.
  - destruct (exec os c w) as [[r w'] |]; [| reflexivity].
    rewrite IH.
    destruct (run os (k r) th w') as [t [[[a th'] w''] |]]; [| reflexivity].
    destruct (run os (f a) th' w''); reflexivity.
Qed.

Lemma created_app (t1 t2 : trace) :
  created (t1 ++ t2) = (created t1 + created t2)%nat.
Proof.
  induction t1 as [| e t1 IH]; simpl; [reflexivity |].
  rewrite IH. apply Nat.add_assoc.
Qed.

(** [start()] on a started object. *)
Lemma run_start_started (th : PosixAbstractThread) (w : world os) :
  isStarted_ th = true -> run os start th w = ([], Some (true, th, w)).
Proof.
  intros H. unfold start. simpl. rewrite H. reflexivity.
Qed.

(** [start()] on an object that is not started. *)
Lemma run_start_idle (th : PosixAbstractThread) (w : world os) :
  isStarted_ th = false ->
  run os start th w =
  match exec os pthread_create w with
  | None => ([Ev th pthread_create None], None)
  | Some ((rc, written), w') =>
      ([Ev th pthread_create (Some (rc, written))],
       Some (rc =? 0, after_create rc written th, w'))
  end.
Proof.
  intros H. unfold start. simpl. rewrite H. simpl.
  destruct (exec os pthread_create w) as [[[rc written] w'] |]; [| reflexivity].
  unfold after_create.
  destruct written as [h |]; simpl; destruct (rc =? 0); simpl;
    try rewrite H; reflexivity.
Qed.

Lemma associated_after_create rc written th :
  isStarted_ th = false ->
  associated (after_create rc written th) = if rc =? 0 then 1%nat else 0%nat.
Proof.
  intros H. unfold after_create, associated.
  destruct written; destruct (rc =? 0); simpl; try rewrite H; reflexivity.
Qed.

(** One call of [start()] keeps the count: the threads created are the
    threads the object gains. *)
Lemma start_count (th : PosixAbstractThread) (w : world os) :
  let (t, out) := run os start th w in
  match out with
  | Some (r, th', _) =>
      associated th' = (associated th + created t)%nat /\ r = isStarted_ th'
  | None => created t = 0%nat
  end.
Proof.
  destruct (isStarted_ th) eqn:E.
  - rewrite run_start_started by exact E. simpl. rewrite E. split; [lia | reflexivity].
  - rewrite run_start_idle by exact E.
    destruct (exec os pthread_create w) as [[[rc written] w'] |]; simpl; [| reflexivity].
    rewrite associated_after_create by exact E.
    unfold associated. rewrite E.
    split; [destruct (rc =? 0); reflexivity |].
    unfold after_create.
    destruct written; destruct (rc =? 0); simpl; rewrite ?E; reflexivity.
Qed.

Lemma associated_le_1 th : (associated th <= 1)%nat.
Proof. unfold associated. destruct (isStarted_ th); lia. Qed.

(** Any number of calls of [start()] in a row. *)
Lemma starts_count (n : nat) :
  forall th w t out,
    run os (starts n) th w = (t, out) ->
    (associated th + created t <= 1)%nat.
Proof.
  induction n as [| n IH]; intros th w t out H; cbn [starts] in H.
  - injection H as <- _. simpl. pose proof (associated_le_1 th). lia.
  - rewrite run_bind in H.
    pose proof (start_count th w) as Hs.
    destruct (run os start th w) as [t1 [[[r th1] w1] |]].
    + destruct Hs as [Hs _].
      rewrite run_bind in H.
      destruct (run os (starts n) th1 w1) as [t2 out2] eqn:E2.
      apply IH in E2.
      destruct out2 as [[[rs th2] w2] |]; simpl in H;
        injection H as <- _; rewrite ?created_app; simpl; lia.
    + injection H as <- _. pose proof (associated_le_1 th). lia.
Qed.

End AnyOS.

(** ** The methods on small inputs *)

(** [start()], [stop()], [waitForTermination()] on a new object: the three
    calls succeed and the world is the one before them. *)
Example start_stop_join :
  run Posix.os (a <- start ;; b <- stop ;; c <- waitForTermination ;;
                Ret [a; b; c]) fresh_object Posix.boot =
  ([Ev fresh_object pthread_create (Some (0, Some 2));
    Ev (constructor 2) (pthread_cancel 2) (Some 0);
    Ev (constructor 2) (pthread_join 2) (Some 0)],
   Some ([true; true; true], constructor 2, Posix.boot)).
Proof. reflexivity. Qed.

(** Three calls of [start()] create one thread. *)
Example three_starts :
  let (t, out) := run Posix.os (starts 3) fresh_object Posix.boot in
  created t = 1%nat
  /\ option_map (fun x => fst (fst x)) out = Some [true; true; true].
Proof. split; reflexivity. Qed.

(** [stop()] on a started object whose thread is gone, where the library
    refuses such a handle: the result is false, and the object is not
    started any more. *)
Example stop_of_vanished_thread :
  run Posix.os stop started_object Posix.boot =
  ([Ev (constructor 2) (pthread_cancel 2) (Some ESRCH)],
   Some (false, constructor 2, Posix.boot)).
Proof. reflexivity. Qed.

(** [start()] when no thread can be created, then once more. *)
Example start_fails_twice :
  fst (run Posix.os (starts 2) fresh_object exhausted) =
  [Ev fresh_object pthread_create (Some (EAGAIN, None));
   Ev fresh_object pthread_create (Some (EAGAIN, None))].
Proof. reflexivity. Qed.

(** A thread that never finishes is never joined. *)
Example join_of_endless_thread :
  run Posix.os waitForTermination stale_object
      (Posix.set_others
         [(2, Posix.mk_thr 0 0 true false false false false false)] Posix.boot) =
  ([Ev stale_object (pthread_join 2) None], None).
Proof. reflexivity. Qed.

(** ** The lifecycle: start and stop, against any operating system *)

Section Lifecycle.

Variable os : OS.

(** C1.  On an object whose [isStarted_] is true, [start()] returns true at
    once: it makes no call at all, so it does not attempt to create a thread,
    and it leaves the object as it was.  Hence whenever a call of [start()]
    returns true, the next call (with no [stop()] in between) returns true
    too without any call, and the two calls together leave exactly one thread
    with the object, the one it had or the one the first call created.
    However many times [start()] is called in a row, the object never has
    more than one thread. *)
Theorem start_is_idempotent :
  forall (th : PosixAbstractThread) (w : world os),
    (isStarted_ th = true -> run os start th w = ([], Some (true, th, w)))
    /\ (forall t1 th1 w1,
          run os start th w = (t1, Some (true, th1, w1)) ->
          run os start th1 w1 = ([], Some (true, th1, w1))
          /\ (associated th + created t1 = 1)%nat)
    /\ (forall n t out,
          run os (starts n) th w = (t, out) ->
          (associated th + created t <= 1)%nat).
Proof.
  intros th w. split; [| split].
  - apply run_start_started.
  - intros t1 th1 w1 H.
    pose proof (start_count os th w) as Hs. rewrite H in Hs.
    destruct Hs as [Hc Hr]. split.
    + apply run_start_started. symmetry. exact Hr.
    + rewrite <- Hc. unfold associated. rewrite <- Hr. reflexivity.
  - intros n. apply starts_count.
Qed.

(** C2.  On a started object [stop()] clears [isStarted_] whatever
    [pthread_cancel] answers: the flag is already false in the object when
    the cancellation request is made, it is false when [stop()] returns, and
    the result is true exactly when the request returned 0.  If the request
    never returned, the flag would be false all the same. *)
Theorem stop_clears_flag_first :
  forall (th : PosixAbstractThread) (w : world os),
    isStarted_ th = true ->
    let th' := set_isStarted_ false th in
    isStarted_ th' = false
    /\ run os stop th w =
       match exec os (pthread_cancel (handle_ th)) w with
       | Some (rc, w') =>
           ([Ev th' (pthread_cancel (handle_ th)) (Some rc)],
            Some (rc =? 0, th', w'))
       | None => ([Ev th' (pthread_cancel (handle_ th)) None], None)
       end.
Proof.
  intros th w H th'. split; [reflexivity |].
  unfold stop. simpl. rewrite H. simpl.
  destruct (exec os (pthread_cancel (handle_ th)) w) as [[rc w'] |];
    [| reflexivity].
  destruct (rc =? 0); reflexivity.
Qed.

(** C4.  On an object that is not started [stop()] returns false, makes no
    call (so no cancellation request), and leaves the flag, the handle and
    the world as they were. *)
Theorem stop_not_started_is_noop :
  forall (th : PosixAbstractThread) (w : world os),
    isStarted_ th = false ->
    run os stop th w = ([], Some (false, th, w)).
Proof.
  intros th w H. unfold stop. simpl. rewrite H. reflexivity.
Qed.

(** C9.  On an object that is not started [start()] makes one call of
    [pthread_create] and returns false exactly when that call does not
    return 0.  After such a failure [isStarted_] is still false (and the
    whole object is as before when the failed call stored nothing through
    [&handle_]), so the next [start()] calls [pthread_create] again. *)
Theorem start_fails_iff_create_fails :
  forall (th : PosixAbstractThread) (w : world os) rc written w',
    isStarted_ th = false ->
    exec os pthread_create w = Some ((rc, written), w') ->
    exists r th',
      run os start th w =
        ([Ev th pthread_create (Some (rc, written))], Some (r, th', w'))
      /\ (r = false <-> rc <> 0)
      /\ (rc <> 0 ->
          isStarted_ th' = false
          /\ (written = None -> th' = th)
          /\ fst (run os start th' w') =
             [Ev th' pthread_create (option_map fst (exec os pthread_create w'))]).
Proof.
  intros th w rc written w' H E.
  exists (rc =? 0), (after_create rc written th).
  split; [| split].
  - rewrite run_start_idle by exact H. rewrite E. reflexivity.
  - rewrite Z.eqb_neq. reflexivity.
  - intros Hrc. apply Z.eqb_neq in Hrc.
    assert (Hs : isStarted_ (after_create rc written th) = false).
    { unfold after_create. rewrite Hrc. destruct written; simpl; exact H. }
    split; [exact Hs | split].
    + intros ->. unfold after_create. rewrite Hrc. reflexivity.
    + rewrite run_start_idle by exact Hs.
      destruct (exec os pthread_create w') as [[[rc2 wr2] w2] |]; reflexivity.
Qed.

End Lifecycle.

Lemma start_is_idempotent_witness :
  isStarted_ started_object = true
  /\ run Posix.os start started_object one_worker =
     ([], Some (true, started_object, one_worker))
  /\ exists t1 th1 w1,
       run Posix.os start fresh_object Posix.boot = (t1, Some (true, th1, w1))
       /\ run Posix.os start th1 w1 = ([], Some (true, th1, w1))
       /\ (associated fresh_object + created t1 = 1)%nat.
Proof.
  split; [reflexivity | split].
  - apply (proj1 (start_is_idempotent Posix.os started_object one_worker)).
    reflexivity.
  - destruct (start_is_idempotent Posix.os fresh_object Posix.boot) as [_ [H _]].
    eexists; eexists; eexists. split; [reflexivity |].
    apply H. reflexivity.
Defined.

Lemma stop_clears_flag_first_witness :
  isStarted_ started_object = true
  /\ run Posix.os stop started_object one_worker =
     ([Ev (set_isStarted_ false started_object) (pthread_cancel 2) (Some 0)],
      Some (true, set_isStarted_ false started_object,
            Posix.set_others
              [(2, Posix.set_cancel_requested true Posix.idle_thread)]
              one_worker)).
Proof.
  split; [reflexivity |].
  apply (stop_clears_flag_first Posix.os started_object one_worker).
  reflexivity.
Defined.

Lemma stop_not_started_is_noop_witness :
  isStarted_ fresh_object = false
  /\ run Posix.os stop fresh_object one_worker =
     ([], Some (false, fresh_object, one_worker)).
Proof.
  split; [reflexivity |].
  apply (stop_not_started_is_noop Posix.os fresh_object one_worker).
  reflexivity.
Defined.

Lemma start_fails_iff_create_fails_witness :
  isStarted_ fresh_object = false
  /\ exec Posix.os pthread_create exhausted = Some ((EAGAIN, None), exhausted)
  /\ exists r th',
       run Posix.os start fresh_object exhausted =
         ([Ev fresh_object pthread_create (Some (EAGAIN, None))],
          Some (r, th', exhausted))
       /\ (r = false <-> EAGAIN <> 0)
       /\ (EAGAIN <> 0 ->
           isStarted_ th' = false
           /\ (@None pthread_t = None -> th' = fresh_object)
           /\ fst (run Posix.os start th' exhausted) =
              [Ev th' pthread_create
                  (option_map fst (exec Posix.os pthread_create exhausted))]).
Proof.
  split; [reflexivity | split; [reflexivity |]].
  apply (start_fails_iff_create_fails Posix.os fresh_object exhausted
           EAGAIN None exhausted); reflexivity.
Defined.

(** ** The thread entry point *)

(** C8.  [Execute] first calls [pthread_setcancelstate(PTHREAD_CANCEL_ENABLE,
    NULL)] and only then [run()] of the subclass, which starts in the world
    that the first call left; against the POSIX handler that world has
    cancellation enabled for the calling thread (its cancelability type is
    not touched).  [Execute] returns 0 when [run()] returns. *)
Theorem Execute_enables_cancellation_then_runs :
  (forall (os : OS) (th : PosixAbstractThread) (w : world os) rc w1,
      exec os (pthread_setcancelstate PTHREAD_CANCEL_ENABLE) w = Some (rc, w1) ->
      run os Execute th w =
      match exec os virtual_run w1 with
      | Some (u, w2) =>
          ([Ev th (pthread_setcancelstate PTHREAD_CANCEL_ENABLE) (Some rc);
            Ev th virtual_run (Some u)],
           Some (0, th, w2))
      | None =>
          ([Ev th (pthread_setcancelstate PTHREAD_CANCEL_ENABLE) (Some rc);
            Ev th virtual_run None],
           None)
      end)
  /\ (forall w : Posix.state,
        exists w1,
          exec Posix.os (pthread_setcancelstate PTHREAD_CANCEL_ENABLE) w
            = Some (0, w1)
          /\ Posix.cancel_enabled (Posix.me w1) = true
          /\ Posix.cancel_async (Posix.me w1) = Posix.cancel_async (Posix.me w)).
Proof.
  split.
  - intros os th w rc w1 H. unfold Execute. simpl. rewrite H.
    destruct (exec os virtual_run w1) as [[u w2] |]; reflexivity.
  - intros w. eexists. split; [reflexivity | split; reflexivity].
Qed.

Lemma Execute_enables_cancellation_then_runs_witness :
  exec Posix.os (pthread_setcancelstate PTHREAD_CANCEL_ENABLE) Posix.boot
    = Some (0, Posix.boot)
  /\ run Posix.os Execute fresh_object Posix.boot =
     ([Ev fresh_object (pthread_setcancelstate PTHREAD_CANCEL_ENABLE) (Some 0);
       Ev fresh_object virtual_run (Some tt)],
      Some (0, fresh_object, Posix.boot)).
Proof.
  split; [reflexivity |].
  apply (proj1 Execute_enables_cancellation_then_runs
           Posix.os fresh_object Posix.boot 0 Posix.boot).
  reflexivity.
Defined.

(** ** Signal sets as bit masks *)

Lemma testbit_sigbit (sig n : Z) :
  0 < sig -> Z.testbit (sigbit sig) n = (n =? sig - 1).
Proof.
  intros Hs. unfold sigbit.
  destruct (Z.ltb_spec n 0) as [Hn | Hn].
  - rewrite Z.testbit_neg_r by exact Hn. symmetry. apply Z.eqb_neq. lia.
  - rewrite Z.shiftl_spec by exact Hn.
    destruct (Z.eqb_spec n (sig - 1)) as [-> | Hne].
    + rewrite Z.sub_diag. reflexivity.
    + destruct (Z.ltb_spec (n - (sig - 1)) 0) as [Hlt | Hge].
      * apply Z.testbit_neg_r. exact Hlt.
      * destruct (n - (sig - 1)) as [| p | p] eqn:E; [lia | | lia].
        destruct p; reflexivity.
Qed.

Lemma testbit_unblockable (n : Z) :
  Z.testbit Posix.unblockable n = (n =? SIGKILL - 1) || (n =? SIGSTOP - 1).
Proof.
  unfold Posix.unblockable. rewrite Z.lor_spec.
  rewrite !testbit_sigbit by (unfold SIGKILL, SIGSTOP; lia). reflexivity.
Qed.

(** The set [blockSignal] and [unblockSignal] hand to [pthread_sigmask],
    less the signals no mask can hold: [sig] alone when it is blockable,
    nothing otherwise. *)
Lemma testbit_request (sig n : Z) :
  Z.testbit (Z.ldiff (snd (sigaddset (snd sigemptyset) sig)) Posix.unblockable) n
  = blockable sig && (n =? sig - 1).
Proof.
  unfold sigaddset, blockable, sigemptyset. simpl snd.
  destruct (valid_signal sig) eqn:V; simpl snd.
  - assert (Hs : 0 < sig).
    { unfold valid_signal in V.
      repeat (apply andb_true_iff in V; destruct V as [V _]).
      apply Z.ltb_lt. exact V. }
    rewrite Z.ldiff_spec, ?Z.lor_spec, testbit_unblockable.
    rewrite ?Z.testbit_0_l, testbit_sigbit by exact Hs. simpl.
    unfold SIGKILL, SIGSTOP.
    destruct (Z.eqb_spec n (sig - 1)) as [-> | Hne].
    + destruct (Z.eqb_spec sig 9), (Z.eqb_spec sig 19),
        (Z.eqb_spec (sig - 1) (9 - 1)), (Z.eqb_spec (sig - 1) (19 - 1));
        simpl; try reflexivity; lia.
    + rewrite andb_false_r. reflexivity.
  - rewrite Z.ldiff_spec, Z.testbit_0_l. reflexivity.
Qed.

Lemma ldiff_lor_same (a b : Z) : Z.ldiff (Z.lor a b) b = Z.ldiff a b.
Proof.
  apply Z.bits_inj'. intros n _.
  rewrite !Z.ldiff_spec, Z.lor_spec.
  destruct (Z.testbit a n), (Z.testbit b n); reflexivity.
Qed.

Lemma ldiff_disjoint (a b : Z) : Z.land a b = 0 -> Z.ldiff a b = a.
Proof.
  intros H. apply Z.bits_inj'. intros n _.
  rewrite Z.ldiff_spec.
  assert (Hn : Z.testbit (Z.land a b) n = false)
    by (rewrite H; apply Z.testbit_0_l).
  rewrite Z.land_spec in Hn.
  destruct (Z.testbit a n), (Z.testbit b n); simpl in *; congruence.
Qed.

(** ** Facts about the POSIX handler *)

Lemma set_blocked_same (t : Posix.thread) :
  Posix.set_blocked (Posix.blocked t) t = t.
Proof. destruct t; reflexivity. Qed.

Lemma set_me_same (w : Posix.state) : Posix.set_me (Posix.me w) w = w.
Proof. destruct w; reflexivity. Qed.

Lemma run_blockSignal (th : PosixAbstractThread) (w : Posix.state) (sig : Z) :
  run Posix.os (blockSignal sig) th w =
  ([Ev th (pthread_sigmask SIG_BLOCK (snd (sigaddset (snd sigemptyset) sig))) (Some 0)],
   Some (true, th,
         Posix.set_me
           (Posix.set_blocked
              (Z.lor (Posix.blocked (Posix.me w))
                 (Z.ldiff (snd (sigaddset (snd sigemptyset) sig)) Posix.unblockable))
              (Posix.me w)) w)).
Proof. reflexivity. Qed.

Lemma run_unblockSignal (th : PosixAbstractThread) (w : Posix.state) (sig : Z) :
  run Posix.os (unblockSignal sig) th w =
  ([Ev th (pthread_sigmask SIG_UNBLOCK (snd (sigaddset (snd sigemptyset) sig))) (Some 0)],
   Some (true, th,
         Posix.set_me
           (Posix.set_blocked
              (Z.ldiff (Posix.blocked (Posix.me w))
                 (Z.ldiff (snd (sigaddset (snd sigemptyset) sig)) Posix.unblockable))
              (Posix.me w)) w)).
Proof. reflexivity. Qed.

(** ** Masking and unmasking a signal *)

(** C7, as stated, fails when the signal is already blocked: SIGUSR1 is in
    the mask before [blockSignal(SIGUSR1); unblockSignal(SIGUSR1)] and is
    not in it afterwards. *)
Lemma block_then_unblock_changes_mask :
  Posix.blocked (Posix.me usr1_blocked) = 512
  /\ sigismember (Posix.blocked (Posix.me usr1_blocked)) SIGUSR1 = true
  /\ mask_after (block_then_unblock SIGUSR1) fresh_object usr1_blocked = Some 0
  /\ mask_after (block_then_unblock SIGUSR1) fresh_object usr1_blocked
     <> Some (Posix.blocked (Posix.me usr1_blocked)).
Proof.
  split; [reflexivity | split; [reflexivity | split; [reflexivity |]]].
  intros H. discriminate H.
Qed.

(** C7, amended.  [blockSignal(sig)] followed by [unblockSignal(sig)]: both
    return true and only the mask of the calling thread can change; the new
    mask is the old one without [sig] (nothing is removed when [sig] is
    SIGKILL, SIGSTOP or not a signal number).  So the mask is the one before
    the two calls exactly when [sig] was not blocked before them, or is not
    blockable. *)
Theorem block_then_unblock_removes_signal :
  forall (th : PosixAbstractThread) (w : Posix.state) (sig : Z),
  exists t m',
    run Posix.os (block_then_unblock sig) th w =
      (t, Some ((true, true), th,
                Posix.set_me (Posix.set_blocked m' (Posix.me w)) w))
    /\ (forall s, sigismember m' s =
                 sigismember (Posix.blocked (Posix.me w)) s
                 && negb (blockable sig && (s =? sig)))
    /\ (m' = Posix.blocked (Posix.me w) <->
        blockable sig && sigismember (Posix.blocked (Posix.me w)) sig = false).
Proof.
  intros th w sig.
  set (m := Posix.blocked (Posix.me w)).
  set (req := Z.ldiff (snd (sigaddset (snd sigemptyset) sig)) Posix.unblockable).
  assert (Hbit : forall n, Z.testbit (Z.ldiff m req) n =
                           Z.testbit m n && negb (blockable sig && (n =? sig - 1))).
  { intros n. rewrite Z.ldiff_spec. unfold req. rewrite testbit_request. reflexivity. }
  eexists. exists (Z.ldiff m req). split; [| split].
  - unfold block_then_unblock.
    rewrite run_bind, run_blockSignal. cbv zeta.
    rewrite run_bind, run_unblockSignal. cbv zeta.
    cbn [run app Posix.me Posix.set_me].
    rewrite <- (ldiff_lor_same m req). reflexivity.
  - intros s. unfold sigismember. rewrite Hbit.
    replace (s - 1 =? sig - 1) with (s =? sig); [reflexivity |].
    destruct (Z.eqb_spec s sig), (Z.eqb_spec (s - 1) (sig - 1)); try reflexivity; lia.
  - split.
    + intros H. pose proof (Hbit (sig - 1)) as Hs. rewrite H in Hs.
      rewrite Z.eqb_refl, andb_true_r in Hs. unfold sigismember. fold m.
      destruct (blockable sig), (Z.testbit m (sig - 1)); simpl in *; congruence.
    + intros H. apply Z.bits_inj'. intros n _. rewrite Hbit.
      destruct (blockable sig); simpl; [| apply andb_true_r].
      destruct (Z.eqb_spec n (sig - 1)) as [-> | Hne]; simpl; [| apply andb_true_r].
      unfold sigismember in H. fold m in H. simpl in H. rewrite H. reflexivity.
Qed.

(** C10.  For a number that is not a signal [sigaddset] returns -1 and
    leaves the set empty; [blockSignal] and [unblockSignal] do not look at
    that result: they hand the empty set to [pthread_sigmask], which accepts
    it, and return true, with the signal mask (and all the rest of the
    world) as before. *)
Theorem invalid_signal_is_silently_accepted :
  forall (th : PosixAbstractThread) (w : Posix.state) (sig : Z),
    valid_signal sig = false ->
    sigaddset (snd sigemptyset) sig = (-1, snd sigemptyset)
    /\ run Posix.os (blockSignal sig) th w =
       ([Ev th (pthread_sigmask SIG_BLOCK 0) (Some 0)], Some (true, th, w))
    /\ run Posix.os (unblockSignal sig) th w =
       ([Ev th (pthread_sigmask SIG_UNBLOCK 0) (Some 0)], Some (true, th, w)).
Proof.
  intros th w sig V.
  assert (Hadd : sigaddset (snd sigemptyset) sig = (-1, snd sigemptyset)).
  { unfold sigaddset. rewrite V. reflexivity. }
  split; [exact Hadd | split].
  - rewrite run_blockSignal, Hadd. simpl snd.
    change (Z.ldiff 0 Posix.unblockable) with 0.
    rewrite Z.lor_0_r, set_blocked_same, set_me_same. reflexivity.
  - rewrite run_unblockSignal, Hadd. simpl snd.
    change (Z.ldiff 0 Posix.unblockable) with 0.
    rewrite Z.ldiff_0_r, set_blocked_same, set_me_same. reflexivity.
Qed.

Lemma invalid_signal_is_silently_accepted_witness :
  valid_signal 100 = false
  /\ sigaddset (snd sigemptyset) 100 = (-1, snd sigemptyset)
  /\ run Posix.os (blockSignal 100) fresh_object usr1_blocked =
     ([Ev fresh_object (pthread_sigmask SIG_BLOCK 0) (Some 0)],
      Some (true, fresh_object, usr1_blocked))
  /\ run Posix.os (unblockSignal 100) fresh_object usr1_blocked =
     ([Ev fresh_object (pthread_sigmask SIG_UNBLOCK 0) (Some 0)],
      Some (true, fresh_object, usr1_blocked)).
Proof.
  split; [reflexivity |].
  apply (invalid_signal_is_silently_accepted fresh_object usr1_blocked 100).
  reflexivity.
Defined.

(** ** Installing a signal handler *)

Lemma exec_sigprocmask (set : sigset_t) (w : Posix.state) :
  exec Posix.os (sigprocmask SIG_SETMASK set) w =
  Some ((0, Posix.blocked (Posix.me w)),
        Posix.set_me
          (Posix.set_blocked (Z.ldiff set Posix.unblockable) (Posix.me w)) w).
Proof. reflexivity. Qed.

Lemma exec_sigaction (sig : Z) (sa : struct_sigaction) (w : Posix.state) :
  exec Posix.os (sigaction sig sa) w =
  Some (if blockable sig
        then (0, Posix.set_dispositions ((sig, sa) :: Posix.dispositions w) w)
        else (-1, w)).
Proof.
  unfold blockable. simpl. unfold Posix.do_sigaction.
  destruct (valid_signal sig && negb (sig =? SIGKILL) && negb (sig =? SIGSTOP));
    reflexivity.
Qed.

Lemma exec_DEBUG level msg sig (w : Posix.state) :
  exec Posix.os (DEBUG level msg sig) w = Some (tt, Posix.do_DEBUG level msg sig w).
Proof. reflexivity. Qed.

(** C6.  [setSignalHandler(sig, handler)] makes these calls in this order:
    [sigprocmask(SIG_SETMASK)] with the full set, which hands back the mask
    in force; [sigaction] for [sig] with a structure that is zero but for
    [handler]; one log line if that failed; [sigprocmask(SIG_SETMASK)] with
    the mask handed back by the first call (this second call finds every
    blockable signal masked).  Whether the installation succeeded or not,
    the signal mask is afterwards what it was before the call: of the whole
    world only the table of handlers, or else the log, has changed. *)
Theorem setSignalHandler_restores_mask :
  forall (th : PosixAbstractThread) (w : Posix.state) (sig handler : Z),
    Z.land (Posix.blocked (Posix.me w)) Posix.unblockable = 0 ->
    let old := Posix.blocked (Posix.me w) in
    let sa := {| sa_handler := handler; sa_mask := 0; sa_flags := 0 |} in
    let ok := blockable sig in
    let w' := if ok
              then Posix.set_dispositions ((sig, sa) :: Posix.dispositions w) w
              else Posix.do_DEBUG DBG_ERROR "Error: can't set signal " sig w in
    run Posix.os (setSignalHandler sig handler) th w =
      ((Ev th (sigprocmask SIG_SETMASK (Z.ones 64)) (Some (0, old))
        :: Ev th (sigaction sig sa) (Some (if ok then 0 else -1))
        :: (if ok then []
            else [Ev th (DEBUG DBG_ERROR "Error: can't set signal " sig) (Some tt)])
        ++ [Ev th (sigprocmask SIG_SETMASK old)
               (Some (0, Z.ldiff (Z.ones 64) Posix.unblockable))])%list,
       Some (ok, th, w'))
    /\ Posix.blocked (Posix.me w') = old.
Proof.
  intros th w sig handler Hwf old sa ok w'.
  apply ldiff_disjoint in Hwf. fold old in Hwf.
  split.
  - unfold setSignalHandler. cbn [bind call run].
    rewrite exec_sigprocmask. cbn [bind run].
    rewrite exec_sigaction. fold sa. fold ok. subst w'.
    destruct ok; cbn [bind run Z.ltb Z.compare]; rewrite ?exec_DEBUG;
      cbn [bind run]; rewrite exec_sigprocmask; cbn [bind run app];
      repeat f_equal; cbn [Posix.me Posix.set_me Posix.set_dispositions
                             Posix.do_DEBUG Posix.set_log Posix.blocked
                             Posix.set_blocked];
      fold old; rewrite ?Hwf; destruct w as [s m o d mx bf bc sl l]; destruct m;
      reflexivity.
  - subst w'. destruct ok; reflexivity.
Qed.

Lemma setSignalHandler_restores_mask_witness :
  Z.land (Posix.blocked (Posix.me usr1_blocked)) Posix.unblockable = 0
  /\ snd (run Posix.os (setSignalHandler SIGUSR1 4096) fresh_object usr1_blocked) =
     Some (true, fresh_object,
           Posix.set_dispositions
             [(SIGUSR1, {| sa_handler := 4096; sa_mask := 0; sa_flags := 0 |})]
             usr1_blocked)
  /\ snd (run Posix.os (setSignalHandler SIGKILL 4096) fresh_object usr1_blocked) =
     Some (false, fresh_object,
           Posix.do_DEBUG DBG_ERROR "Error: can't set signal " SIGKILL usr1_blocked).
Proof.
  split; [reflexivity | split].
  - rewrite (proj1 (setSignalHandler_restores_mask fresh_object usr1_blocked
                      SIGUSR1 4096 eq_refl)).
    reflexivity.
  - rewrite (proj1 (setSignalHandler_restores_mask fresh_object usr1_blocked
                      SIGKILL 4096 eq_refl)).
    reflexivity.
Defined.

(** ** Sending a signal *)

(** C3.  The code does not do what the claim says: [sendSignal] has no test
    of [isStarted_], which [stop] has, and hands [handle_] to [pthread_kill]
    as the constructor left it.  An object that was never started, whose
    handle holds the id of a running thread, sends SIGUSR1 to that thread
    and returns true, where the claim has it return false with no effect. *)
Lemma sendSignal_never_started_reaches_thread :
  isStarted_ stale_object = false
  /\ run Posix.os (sendSignal SIGUSR1) stale_object one_worker =
     ([Ev stale_object (pthread_kill 2 SIGUSR1) (Some 0)],
      Some (true, stale_object,
            Posix.set_others
              [(2, Posix.set_pending (sigbit SIGUSR1) Posix.idle_thread)]
              one_worker))
  /\ ~ returns Posix.os (sendSignal SIGUSR1) stale_object one_worker false.
Proof.
  split; [reflexivity | split; [reflexivity |]].
  intros [t [th' [w' H]]]. discriminate H.
Qed.

(** ** Waiting for the thread *)

(** C5, as stated, fails: [waitForTermination] looks neither at
    [isStarted_] nor at whether the thread was joined before.  An object
    that was never started, whose handle happens to hold the id of a thread
    that can be joined, joins that thread and returns true; and an object
    whose thread was joined returns true again once the id of its thread
    has been given to a thread started by another object. *)
Lemma waitForTermination_joins_foreign_thread :
  isStarted_ stale_object = false
  /\ run Posix.os waitForTermination stale_object one_worker =
     ([Ev stale_object (pthread_join 2) (Some 0)],
      Some (true, stale_object, Posix.boot))
  /\ ~ returns Posix.os waitForTermination stale_object one_worker false
  /\ join_start_join fresh_object second_object Posix.boot = Some (true, true).
Proof.
  split; [reflexivity | split; [reflexivity | split; [| reflexivity]]].
  intros [t [th' [w' H]]]. discriminate H.
Qed.

(** C5, amended.  [waitForTermination()] makes one call,
    [pthread_join(handle_)], and returns false exactly when that call does
    not return 0; the object and its handle are as before.  The object keeps
    no record of the join: the next [waitForTermination()] asks
    [pthread_join] about the same handle again.  This holds against any
    operating system. *)
Theorem waitForTermination_follows_pthread_join :
  forall (os : OS) (th : PosixAbstractThread) (w : world os) rc w1,
    exec os (pthread_join (handle_ th)) w = Some (rc, w1) ->
    exists r,
      run os waitForTermination th w =
        ([Ev th (pthread_join (handle_ th)) (Some rc)], Some (r, th, w1))
      /\ (r = false <-> rc <> 0)
      /\ fst (run os waitForTermination th w1) =
         [Ev th (pthread_join (handle_ th))
             (option_map fst (exec os (pthread_join (handle_ th)) w1))].
Proof.
  intros os th w rc w1 H.
  exists (rc =? 0). split; [| split].
  - unfold waitForTermination. cbn [bind call run load_handle_].
    rewrite H. destruct (rc =? 0); reflexivity.
  - rewrite Z.eqb_neq. reflexivity.
  - unfold waitForTermination. cbn [bind call run load_handle_].
    destruct (exec os (pthread_join (handle_ th)) w1) as [[rc2 w2] |];
      [| reflexivity].
    destruct (rc2 =? 0); reflexivity.
Qed.

Lemma waitForTermination_follows_pthread_join_witness :
  exec Posix.os (pthread_join (handle_ started_object)) one_worker
    = Some (0, Posix.boot)
  /\ exists r,
       run Posix.os waitForTermination started_object one_worker =
         ([Ev started_object (pthread_join (handle_ started_object)) (Some 0)],
          Some (r, started_object, Posix.boot))
       /\ (r = false <-> 0 <> 0)
       /\ fst (run Posix.os waitForTermination started_object Posix.boot) =
          [Ev started_object (pthread_join (handle_ started_object))
              (option_map fst
                 (exec Posix.os (pthread_join (handle_ started_object)) Posix.boot))].
Proof.
  split; [reflexivity |].
  apply (waitForTermination_follows_pthread_join Posix.os started_object
           one_worker 0 Posix.boot).
  reflexivity.
Defined.

(** ** Further properties of the lifecycle, against any operating system *)

(** One step of symbolic execution: look at what the next call returns. *)
Ltac next_call :=
  match goal with
  | |- context [exec ?os ?c ?w] =>
      let r := fresh "r" in
      let w' := fresh "w" in
      let E := fresh "E" in
      destruct (exec os c w) as [[r w'] |] eqn:E
  end.

Ltac unfold_method :=
  cbn [run bind call load_isStarted_ load_handle_ store_isStarted_
       store_handle_ skip negb].

Lemma run_stop_started (os : OS) (th : PosixAbstractThread) (w : world os) :
  isStarted_ th = true ->
  run os stop th w =
  match exec os (pthread_cancel (handle_ th)) w with
  | Some (rc, w') =>
      ([Ev (set_isStarted_ false th) (pthread_cancel (handle_ th)) (Some rc)],
       Some (rc =? 0, set_isStarted_ false th, w'))
  | None => ([Ev (set_isStarted_ false th) (pthread_cancel (handle_ th)) None], None)
  end.
Proof.
  intros H. unfold stop. unfold_method. rewrite H. unfold_method.
  cbn [handle_ set_isStarted_].
  next_call; [| reflexivity]. destruct (r =? 0); reflexivity.
Qed.

Lemma run_stop_idle (os : OS) (th : PosixAbstractThread) (w : world os) :
  isStarted_ th = false -> run os stop th w = ([], Some (false, th, w)).
Proof.
  intros H. unfold stop. unfold_method. rewrite H. reflexivity.
Qed.

(** X1.  When [pthread_create] returns 0 having stored [h], [start()] on an
    object that is not started returns true and leaves the object started
    and bound to [h], whatever its handle held before. *)
Theorem start_success_binds_handle :
  forall (os : OS) (th : PosixAbstractThread) (w : world os) h w',
    isStarted_ th = false ->
    exec os pthread_create w = Some ((0, Some h), w') ->
    run os start th w =
    ([Ev th pthread_create (Some (0, Some h))],
     Some (true, {| isStarted_ := true; handle_ := h |}, w')).
Proof.
  intros os th w h w' H E.
  rewrite run_start_idle by exact H. rewrite E. reflexivity.
Qed.

(** X2.  Whatever the object and whatever [pthread_cancel] answered, once a
    call of [stop()] has returned the next call of [stop()] returns false
    and makes no call: a thread is asked to cancel at most once. *)
Theorem stop_twice_second_is_noop :
  forall (os : OS) (th : PosixAbstractThread) (w : world os) t r th1 w1,
    run os stop th w = (t, Some (r, th1, w1)) ->
    isStarted_ th1 = false
    /\ run os stop th1 w1 = ([], Some (false, th1, w1)).
Proof.
  intros os th w t r th1 w1 H.
  assert (Hs : isStarted_ th1 = false).
  { destruct (isStarted_ th) eqn:E.
    - rewrite run_stop_started in H by exact E.
      destruct (exec os (pthread_cancel (handle_ th)) w) as [[rc w'] |];
        [| discriminate H].
      injection H as _ _ <- _. reflexivity.
    - rewrite run_stop_idle in H by exact E.
      injection H as _ _ <- _. exact E. }
  split; [exact Hs | apply run_stop_idle; exact Hs].
Qed.

(** X3.  [stop()] then [start()] on a started object: the cancellation
    request is followed by a new [pthread_create], whether the request was
    accepted or not, and when the creation returns 0 the object is started
    again and bound to the new handle; the old handle is overwritten
    without the old thread having been joined. *)
Theorem stop_then_start_creates_again :
  forall (os : OS) (th : PosixAbstractThread) (w : world os) rc w1 h w2,
    isStarted_ th = true ->
    exec os (pthread_cancel (handle_ th)) w = Some (rc, w1) ->
    exec os pthread_create w1 = Some ((0, Some h), w2) ->
    run os stop_then_start th w =
    ([Ev (set_isStarted_ false th) (pthread_cancel (handle_ th)) (Some rc);
      Ev (set_isStarted_ false th) pthread_create (Some (0, Some h))],
     Some ((rc =? 0, true), {| isStarted_ := true; handle_ := h |}, w2)).
Proof.
  intros os th w rc w1 h w2 H E1 E2.
  unfold stop_then_start.
  rewrite run_bind, run_stop_started by exact H. rewrite E1.
  rewrite run_bind, run_start_idle by reflexivity. rewrite E2.
  reflexivity.
Qed.

(** Symbolic execution to the end: every call, every test. *)
Ltac explore :=
  repeat (unfold_method;
          first
            [ next_call
            | match goal with
              | |- context [match ?x with pair _ _ => _ end] => is_var x; destruct x
              | |- context [match ?x with Some _ => _ | None => _ end] =>
                  is_var x; destruct x
              | |- context [if ?b then _ else _] => destruct b eqn:?
              end ]).

Lemma no_put_run (os : OS) (A : Type) (p : prog A) :
  no_put p ->
  forall th w t a th' w',
    run os p th w = (t, Some (a, th', w')) -> th' = th.
Proof.
  induction p as [a0 | k IH | this' k IH | R c k IH];
    intros Hp th w t a th' w' H; simpl in *.
  - injection H as _ _ <- _. reflexivity.
  - eapply IH; [apply Hp | exact H].
  - contradiction.
  - destruct (exec os c w) as [[r w1] |]; [| discriminate H].
    destruct (run os (k r) th w1) as [t1 out1] eqn:E.
    injection H as _ ->.
    eapply IH; [apply Hp | exact E].
Qed.

(** X4.  [waitForTermination], [blockSignal], [unblockSignal], [sendSignal]
    and [setSignalHandler] never write to the object: against any operating
    system, when they return, [isStarted_] and [handle_] are what they were.
    In particular joining the thread does not clear the flag. *)
Theorem only_start_and_stop_change_the_object :
  forall (os : OS) (th : PosixAbstractThread) (w : world os) sig handler,
    (forall t r th' w',
        run os waitForTermination th w = (t, Some (r, th', w')) -> th' = th)
    /\ (forall t r th' w',
          run os (blockSignal sig) th w = (t, Some (r, th', w')) -> th' = th)
    /\ (forall t r th' w',
          run os (unblockSignal sig) th w = (t, Some (r, th', w')) -> th' = th)
    /\ (forall t r th' w',
          run os (sendSignal sig) th w = (t, Some (r, th', w')) -> th' = th)
    /\ (forall t r th' w',
          run os (setSignalHandler sig handler) th w = (t, Some (r, th', w')) ->
          th' = th).
Proof.
  intros os th w sig handler.
  repeat split; intros t r th' w'; apply no_put_run;
    cbn; intros;
    repeat match goal with
           | |- context [if ?b then _ else _] => destruct b
           | |- context [match ?x with pair _ _ => _ end] => destruct x
           end;
    cbn; intros;
    repeat match goal with
           | |- context [if ?b then _ else _] => destruct b; cbn; intros
           end;
    exact I.
Qed.

(** X5.  Only [start()] creates threads: against any operating system no
    call of [stop], [waitForTermination], [blockSignal], [unblockSignal],
    [sendSignal], [setSignalHandler] or [Execute] contains a successful
    [pthread_create], and one call of [start()] contains at most one. *)
Theorem only_start_creates_threads :
  forall (os : OS) (th : PosixAbstractThread) (w : world os) sig handler,
    created (fst (run os stop th w)) = 0%nat
    /\ created (fst (run os waitForTermination th w)) = 0%nat
    /\ created (fst (run os (blockSignal sig) th w)) = 0%nat
    /\ created (fst (run os (unblockSignal sig) th w)) = 0%nat
    /\ created (fst (run os (sendSignal sig) th w)) = 0%nat
    /\ created (fst (run os (setSignalHandler sig handler) th w)) = 0%nat
    /\ created (fst (run os Execute th w)) = 0%nat
    /\ (created (fst (run os start th w)) <= 1)%nat.
Proof.
  intros os th w sig handler.
  repeat split.
  - unfold stop. explore; reflexivity.
  - unfold waitForTermination. explore; reflexivity.
  - unfold blockSignal. explore; reflexivity.
  - unfold unblockSignal. explore; reflexivity.
  - unfold sendSignal. explore; reflexivity.
  - unfold setSignalHandler. explore; reflexivity.
  - unfold Execute. explore; reflexivity.
  - unfold start. explore; cbn;
      try match goal with |- context [if ?b then _ else _] => destruct b end;
      lia.
Qed.

(** X6.  The signal operations log exactly when they fail: against any
    operating system, when [blockSignal], [unblockSignal], [sendSignal] or
    [setSignalHandler] returns, it has handed one line to the logger if its
    result is false and none if it is true.  [start], [stop] and
    [waitForTermination] never log, whatever they return. *)
Theorem failures_of_signal_operations_are_logged :
  forall (os : OS) (th : PosixAbstractThread) (w : world os) sig handler,
    (forall t r th' w',
        run os (blockSignal sig) th w = (t, Some (r, th', w')) ->
        logged t = if r then 0%nat else 1%nat)
    /\ (forall t r th' w',
          run os (unblockSignal sig) th w = (t, Some (r, th', w')) ->
          logged t = if r then 0%nat else 1%nat)
    /\ (forall t r th' w',
          run os (sendSignal sig) th w = (t, Some (r, th', w')) ->
          logged t = if r then 0%nat else 1%nat)
    /\ (forall t r th' w',
          run os (setSignalHandler sig handler) th w = (t, Some (r, th', w')) ->
          logged t = if r then 0%nat else 1%nat)
    /\ logged (fst (run os start th w)) = 0%nat
    /\ logged (fst (run os stop th w)) = 0%nat
    /\ logged (fst (run os waitForTermination th w)) = 0%nat.
Proof.
  intros os th w sig handler.
  repeat split.
  - unfold blockSignal. explore; intros ? ? ? ? Hrun;
      try discriminate Hrun; injection Hrun as <- <- _ _; reflexivity.
  - unfold unblockSignal. explore; intros ? ? ? ? Hrun;
      try discriminate Hrun; injection Hrun as <- <- _ _; reflexivity.
  - unfold sendSignal. explore; intros ? ? ? ? Hrun;
      try discriminate Hrun; injection Hrun as <- <- _ _; reflexivity.
  - unfold setSignalHandler. explore; intros ? ? ? ? Hrun;
      try discriminate Hrun; injection Hrun as <- <- _ _; reflexivity.
  - unfold start. explore; reflexivity.
  - unfold stop. explore; reflexivity.
  - unfold waitForTermination. explore; reflexivity.
Qed.

Lemma only_start_and_stop_change_the_object_witness :
  run Posix.os waitForTermination started_object one_worker =
    ([Ev started_object (pthread_join 2) (Some 0)],
     Some (true, started_object, Posix.boot))
  /\ started_object = started_object.
Proof.
  split; [reflexivity |].
  apply (proj1 (only_start_and_stop_change_the_object Posix.os started_object
                  one_worker 0 0)
           [Ev started_object (pthread_join 2) (Some 0)] true started_object
           Posix.boot).
  reflexivity.
Defined.

Lemma failures_of_signal_operations_are_logged_witness :
  run Posix.os (sendSignal SIGUSR1) fresh_object Posix.boot =
    ([Ev fresh_object (pthread_kill 77 SIGUSR1) (Some ESRCH);
      Ev fresh_object (DEBUG DBG_ERROR "Error: can't send signal " SIGUSR1) (Some tt)],
     Some (false, fresh_object,
           Posix.do_DEBUG DBG_ERROR "Error: can't send signal " SIGUSR1 Posix.boot))
  /\ logged
       [Ev fresh_object (pthread_kill 77 SIGUSR1) (Some ESRCH);
        Ev fresh_object (DEBUG DBG_ERROR "Error: can't send signal " SIGUSR1) (Some tt)]
     = 1%nat.
Proof.
  split; [reflexivity |].
  apply (proj1 (proj2 (proj2 (failures_of_signal_operations_are_logged
                                Posix.os fresh_object Posix.boot SIGUSR1 0)))
           _ false fresh_object
           (Posix.do_DEBUG DBG_ERROR "Error: can't send signal " SIGUSR1 Posix.boot)).
  reflexivity.
Defined.

(** X7.  The result of [setSignalHandler] is that of [sigaction] alone:
    true exactly when [sigaction] returned no negative number, whatever the
    two calls of [sigprocmask] answered; and when it returns, its last call
    was [sigprocmask(SIG_SETMASK)] with the set the first call handed back,
    after a failed installation as after a successful one. *)
Theorem setSignalHandler_result_is_that_of_sigaction :
  forall (os : OS) (th : PosixAbstractThread) (w : world os) sig handler
         rc1 old w1 rc2 w2,
    exec os (sigprocmask SIG_SETMASK (Z.ones 64)) w = Some ((rc1, old), w1) ->
    exec os (sigaction sig {| sa_handler := handler; sa_mask := 0; sa_flags := 0 |}) w1
      = Some (rc2, w2) ->
    forall t r th' w',
      run os (setSignalHandler sig handler) th w = (t, Some (r, th', w')) ->
      r = (0 <=? rc2)
      /\ exists pre x w3,
           t = (pre ++ [Ev th (sigprocmask SIG_SETMASK old) (Some x)])%list
           /\ exec os (sigprocmask SIG_SETMASK old) w3 = Some (x, w').
Proof.
  intros os th w sig handler rc1 old w1 rc2 w2 E1 E2 t r th' w'.
  rewrite Z.leb_antisym.
  unfold setSignalHandler. unfold_method.
  change (snd sigfillset) with (Z.ones 64). rewrite E1. unfold_method.
  change (set_sa_handler handler bzero_sigaction)
    with {| sa_handler := handler; sa_mask := 0; sa_flags := 0 |}.
  rewrite E2. destruct (rc2 <? 0); unfold_method.
  - destruct (exec os (DEBUG DBG_ERROR "Error: can't set signal " sig) w2)
      as [[u w3] |]; [| intros H; discriminate H].
    unfold_method.
    destruct (exec os (sigprocmask SIG_SETMASK old) w3) as [[x w4] |] eqn:E3;
      [| intros H; discriminate H].
    intros H. injection H as <- <- _ <-.
    split; [reflexivity |].
    exists [Ev th (sigprocmask SIG_SETMASK (Z.ones 64)) (Some (rc1, old));
            Ev th (sigaction sig {| sa_handler := handler; sa_mask := 0; sa_flags := 0 |})
               (Some rc2);
            Ev th (DEBUG DBG_ERROR "Error: can't set signal " sig) (Some u)],
      x, w3.
    split; [reflexivity | exact E3].
  - destruct (exec os (sigprocmask SIG_SETMASK old) w2) as [[x w4] |] eqn:E3;
      [| intros H; discriminate H].
    intros H. injection H as <- <- _ <-.
    split; [reflexivity |].
    exists [Ev th (sigprocmask SIG_SETMASK (Z.ones 64)) (Some (rc1, old));
            Ev th (sigaction sig {| sa_handler := handler; sa_mask := 0; sa_flags := 0 |})
               (Some rc2)],
      x, w2.
    split; [reflexivity | exact E3].
Qed.

Lemma setSignalHandler_result_is_that_of_sigaction_witness :
  run Posix.os (setSignalHandler SIGKILL 4096) fresh_object Posix.boot =
    (fst (run Posix.os (setSignalHandler SIGKILL 4096) fresh_object Posix.boot),
     Some (false, fresh_object,
           Posix.do_DEBUG DBG_ERROR "Error: can't set signal " SIGKILL Posix.boot))
  /\ false = (0 <=? -1).
Proof.
  split; [reflexivity |].
  apply (setSignalHandler_result_is_that_of_sigaction Posix.os fresh_object
           Posix.boot SIGKILL 4096 0 0
           (Posix.set_me
              (Posix.set_blocked (Z.ldiff (Z.ones 64) Posix.unblockable)
                 Posix.idle_thread) Posix.boot)
           (-1)
           (Posix.set_me
              (Posix.set_blocked (Z.ldiff (Z.ones 64) Posix.unblockable)
                 Posix.idle_thread) Posix.boot)
           eq_refl eq_refl
           (fst (run Posix.os (setSignalHandler SIGKILL 4096) fresh_object Posix.boot))
           false fresh_object
           (Posix.do_DEBUG DBG_ERROR "Error: can't set signal " SIGKILL Posix.boot)).
  reflexivity.
Defined.

(** ** Further properties against the POSIX handler *)

Lemma remove_absent (h : pthread_t) (l : list (pthread_t * Posix.thread)) :
  Posix.lookup h l = None -> Posix.remove h l = l.
Proof.
  induction l as [| [h' t'] l IH]; simpl; [reflexivity |].
  destruct (h' =? h); [discriminate |].
  intros H. rewrite IH by exact H. reflexivity.
Qed.

(** A successful [pthread_create] hands out an id that named no thread, and
    puts the new thread in front of the others. *)
Lemma create_inv (w : Posix.state) (h : pthread_t) (w1 : Posix.state) :
  Posix.do_pthread_create w = ((0, Some h), w1) ->
  (h =? Posix.self w) = false
  /\ Posix.lookup h (Posix.others w) = None
  /\ w1 = Posix.set_others ((h, Posix.new_thread w) :: Posix.others w) w.
Proof.
  unfold Posix.do_pthread_create.
  destruct (List.length (Posix.others w) <? Posix.max_threads w)%nat;
    [| discriminate].
  destruct (Posix.fresh_id w) as [h' |] eqn:F; [| discriminate].
  intros H. injection H as -> <-.
  unfold Posix.fresh_id in F. apply find_some in F. destruct F as [_ F].
  unfold Posix.in_use, Posix.find_thread in F.
  destruct (h =? Posix.self w); [discriminate F |].
  destruct (Posix.lookup h (Posix.others w)); [discriminate F |].
  repeat split.
Qed.

Lemma set_others_same (w : Posix.state) : Posix.set_others (Posix.others w) w = w.
Proof. destruct w; reflexivity. Qed.

Lemma set_others_twice (l l' : list (pthread_t * Posix.thread)) (w : Posix.state) :
  Posix.set_others l (Posix.set_others l' w) = Posix.set_others l w.
Proof. reflexivity. Qed.

(** X8.  On an object that is not started, when the thread can be created:
    [start()], [stop()], [waitForTermination()] all return true if the body
    of the thread finishes by itself or keeps reaching cancellation points;
    the object ends not started with the handle of the thread that was
    created, and nothing is left of that thread: the world is the one before
    the three calls.  If the body does neither, [waitForTermination()] does
    not return.  It is the request of [stop()] that ends a body which does
    not finish: without [stop()], [waitForTermination()] does not return
    for such a body. *)
Theorem start_stop_wait_round_trip :
  forall (th : PosixAbstractThread) (w : Posix.state) h w1,
    isStarted_ th = false ->
    Posix.do_pthread_create w = ((0, Some h), w1) ->
    run Posix.os start_stop_wait th w =
      (if Posix.body_finishes w || Posix.body_cancel_points w
       then ([Ev th pthread_create (Some (0, Some h));
              Ev (constructor h) (pthread_cancel h) (Some 0);
              Ev (constructor h) (pthread_join h) (Some 0)],
             Some ([true; true; true], constructor h, w))
       else ([Ev th pthread_create (Some (0, Some h));
              Ev (constructor h) (pthread_cancel h) (Some 0);
              Ev (constructor h) (pthread_join h) None],
             None))
    /\ (Posix.body_finishes w = false ->
        run Posix.os start_then_wait th w =
        ([Ev th pthread_create (Some (0, Some h));
          Ev {| isStarted_ := true; handle_ := h |} (pthread_join h) None],
         None)).
Proof.
  intros th w h w1 Hs Hc.
  destruct (create_inv w h w1 Hc) as [Hself [Habs ->]].
  destruct th as [st h0]. cbn in Hs. subst st.
  split.
  - unfold start_stop_wait.
    rewrite run_bind, run_start_idle by reflexivity.
    cbn [exec Posix.os Posix.handler]. rewrite Hc.
    unfold after_create, set_isStarted_, set_handle_. cbn [Z.eqb handle_ isStarted_].
    rewrite run_bind, run_stop_started by reflexivity.
    unfold set_isStarted_. cbn [exec Posix.os Posix.handler handle_ isStarted_].
    unfold Posix.do_pthread_cancel, Posix.find_thread, Posix.put_thread.
    cbn [Posix.self Posix.others Posix.set_others Posix.lookup Posix.update].
    rewrite Hself, Z.eqb_refl.
    cbn [Z.eqb app]. rewrite run_bind.
    unfold waitForTermination. unfold_method.
    cbn [exec Posix.os Posix.handler handle_].
    unfold Posix.do_pthread_join.
    cbn [Posix.self Posix.others Posix.set_others Posix.lookup Posix.remove].
    rewrite Hself, Z.eqb_refl.
    unfold Posix.ends.
    cbn [Posix.detached Posix.finishes Posix.cancel_requested Posix.cancel_enabled
         Posix.cancel_async Posix.cancel_points Posix.set_cancel_requested
         Posix.new_thread andb orb].
    destruct (Posix.body_finishes w || Posix.body_cancel_points w);
      [| reflexivity].
    cbn [Z.eqb run app Posix.set_others Posix.self Posix.me Posix.others
         Posix.dispositions Posix.max_threads Posix.body_finishes
         Posix.body_cancel_points Posix.stale Posix.log].
    rewrite remove_absent by exact Habs.
    destruct w; reflexivity.
  - intros B. unfold start_then_wait.
    rewrite run_bind, run_start_idle by reflexivity.
    cbn [exec Posix.os Posix.handler]. rewrite Hc.
    unfold after_create, set_isStarted_, set_handle_. cbn [Z.eqb handle_ isStarted_].
    rewrite run_bind.
    unfold waitForTermination. unfold_method.
    cbn [exec Posix.os Posix.handler handle_].
    unfold Posix.do_pthread_join.
    cbn [Posix.self Posix.others Posix.set_others Posix.lookup].
    rewrite Hself, Z.eqb_refl.
    unfold Posix.ends.
    cbn [Posix.detached Posix.finishes Posix.cancel_requested Posix.new_thread
         andb orb].
    rewrite B. reflexivity.
Qed.

Lemma start_stop_wait_round_trip_witness :
  isStarted_ fresh_object = false
  /\ Posix.do_pthread_create usr1_blocked =
     ((0, Some 2),
      Posix.set_others [(2, Posix.new_thread usr1_blocked)] usr1_blocked)
  /\ run Posix.os start_stop_wait fresh_object usr1_blocked =
     ([Ev fresh_object pthread_create (Some (0, Some 2));
       Ev (constructor 2) (pthread_cancel 2) (Some 0);
       Ev (constructor 2) (pthread_join 2) (Some 0)],
      Some ([true; true; true], constructor 2, usr1_blocked)).
Proof.
  split; [reflexivity | split; [reflexivity |]].
  apply (proj1 (start_stop_wait_round_trip fresh_object usr1_blocked 2
                  (Posix.set_others [(2, Posix.new_thread usr1_blocked)] usr1_blocked)
                  eq_refl eq_refl)).
Defined.

(** X9.  Joining does not make the object startable again.  Against any
    operating system, after a successful [start()] and a
    [waitForTermination()] that returned, the object is still started: the
    next [start()] returns true without any call, and the [stop()] after it
    sends its cancellation request to the handle of the thread that was
    joined, and only then is the flag cleared. *)
Theorem joined_object_stays_started :
  forall (os : OS) (th : PosixAbstractThread) (w : world os)
         h w1 rcj w2 rcc w3,
    isStarted_ th = false ->
    exec os pthread_create w = Some ((0, Some h), w1) ->
    exec os (pthread_join h) w1 = Some (rcj, w2) ->
    exec os (pthread_cancel h) w2 = Some (rcc, w3) ->
    run os start_wait_start_stop th w =
    ([Ev th pthread_create (Some (0, Some h));
      Ev {| isStarted_ := true; handle_ := h |} (pthread_join h) (Some rcj);
      Ev (constructor h) (pthread_cancel h) (Some rcc)],
     Some ([true; rcj =? 0; true; rcc =? 0], constructor h, w3)).
Proof.
  intros os th w h w1 rcj w2 rcc w3 Hs Ec Ej Ek.
  destruct th as [st h0]. cbn in Hs. subst st.
  unfold start_wait_start_stop.
  rewrite run_bind, run_start_idle by reflexivity. rewrite Ec.
  unfold after_create, set_isStarted_, set_handle_. cbn [Z.eqb handle_ isStarted_].
  rewrite run_bind.
  unfold waitForTermination at 1. unfold_method. cbn [handle_]. rewrite Ej.
  replace (run os (if rcj =? 0 then Ret true else Ret false)
             {| isStarted_ := true; handle_ := h |} w2)
    with (@nil event, Some (rcj =? 0, {| isStarted_ := true; handle_ := h |}, w2))
    by (destruct (rcj =? 0); reflexivity).
  cbn [app].
  rewrite run_bind, run_start_started by reflexivity.
  rewrite run_bind, run_stop_started by reflexivity.
  unfold set_isStarted_. cbn [handle_ isStarted_]. rewrite Ek.
  reflexivity.
Qed.

Lemma joined_object_stays_started_witness :
  isStarted_ fresh_object = false
  /\ run agreeable start_wait_start_stop fresh_object tt =
     ([Ev fresh_object pthread_create (Some (0, Some 5));
       Ev {| isStarted_ := true; handle_ := 5 |} (pthread_join 5) (Some 0);
       Ev (constructor 5) (pthread_cancel 5) (Some 0)],
      Some ([true; true; true; true], constructor 5, tt)).
Proof.
  split; [reflexivity |].
  apply (joined_object_stays_started agreeable fresh_object tt 5 tt 0 tt 0 tt);
    reflexivity.
Defined.



(** ** Further properties of the signal mask *)

Lemma eqb_pred (s sig : Z) : (s - 1 =? sig - 1) = (s =? sig).
Proof.
  destruct (Z.eqb_spec s sig), (Z.eqb_spec (s - 1) (sig - 1));
    try reflexivity; lia.
Qed.

(** X11.  [blockSignal(sig)] returns true and changes nothing but the signal
    mask of the calling thread, to which it adds [sig] and no other signal;
    it adds nothing at all when [sig] is SIGKILL, SIGSTOP or not a signal
    number an application can name (out of 1 to 64, or 32 or 33), and still
    returns true. *)
Theorem blockSignal_adds_only_sig :
  forall (th : PosixAbstractThread) (w : Posix.state) (sig : Z),
  exists t m',
    run Posix.os (blockSignal sig) th w =
      (t, Some (true, th, Posix.set_me (Posix.set_blocked m' (Posix.me w)) w))
    /\ forall s, sigismember m' s =
                 sigismember (Posix.blocked (Posix.me w)) s
                 || (blockable sig && (s =? sig)).
Proof.
  intros th w sig. eexists. eexists. split.
  - rewrite run_blockSignal. reflexivity.
  - intros s. unfold sigismember.
    rewrite Z.lor_spec, testbit_request, eqb_pred. reflexivity.
Qed.

(** X12.  When [sig] is not pending for the calling thread,
    [unblockSignal(sig)] returns true and changes nothing but the signal
    mask of the calling thread, from which it removes [sig] and no other
    signal. *)
Theorem unblockSignal_removes_only_sig :
  forall (th : PosixAbstractThread) (w : Posix.state) (sig : Z),
    sigismember (Posix.pending (Posix.me w)) sig = false ->
    exists t m',
      run Posix.os (unblockSignal sig) th w =
        (t, Some (true, th, Posix.set_me (Posix.set_blocked m' (Posix.me w)) w))
      /\ forall s, sigismember m' s =
                   sigismember (Posix.blocked (Posix.me w)) s
                   && negb (blockable sig && (s =? sig)).
Proof.
  intros th w sig _. eexists. eexists. split.
  - rewrite run_unblockSignal. reflexivity.
  - intros s. unfold sigismember.
    rewrite Z.ldiff_spec, testbit_request, eqb_pred. reflexivity.
Qed.

Lemma unblockSignal_removes_only_sig_witness :
  sigismember (Posix.pending (Posix.me usr1_blocked)) SIGUSR1 = false
  /\ exists t m',
       run Posix.os (unblockSignal SIGUSR1) fresh_object usr1_blocked =
         (t, Some (true, fresh_object,
                   Posix.set_me (Posix.set_blocked m' (Posix.me usr1_blocked))
                     usr1_blocked))
       /\ forall s, sigismember m' s =
                    sigismember (Posix.blocked (Posix.me usr1_blocked)) s
                    && negb (blockable SIGUSR1 && (s =? SIGUSR1)).
Proof.
  split; [reflexivity |].
  apply (unblockSignal_removes_only_sig fresh_object usr1_blocked SIGUSR1).
  reflexivity.
Defined.

(** X13.  Of two calls on the same signal the last one decides: the mask
    after [blockSignal(sig)] twice, or after [unblockSignal(sig)] then
    [blockSignal(sig)], is the mask after [blockSignal(sig)] alone; and the
    mask after [unblockSignal(sig)] twice is the mask after
    [unblockSignal(sig)] alone.  A signal blocked twice is unblocked by one
    call: the calls do not count. *)
Theorem last_mask_call_decides :
  forall (th : PosixAbstractThread) (w : Posix.state) (sig : Z),
    final_mask (blockSignal sig ;; blockSignal sig) th w
      = final_mask (blockSignal sig) th w
    /\ final_mask (unblockSignal sig ;; blockSignal sig) th w
       = final_mask (blockSignal sig) th w
    /\ final_mask (unblockSignal sig ;; unblockSignal sig) th w
       = final_mask (unblockSignal sig) th w
    /\ final_mask (blockSignal sig ;; blockSignal sig ;; unblockSignal sig) th w
       = final_mask (unblockSignal sig) th w.
Proof.
  intros th w sig. unfold final_mask.
  rewrite !run_bind, !run_blockSignal, !run_unblockSignal. cbv zeta.
  rewrite !run_bind. rewrite !run_blockSignal, !run_unblockSignal.
  cbn [snd fst Posix.me Posix.set_me Posix.blocked Posix.set_blocked].
  set (m := Posix.blocked (Posix.me w)).
  set (req := Z.ldiff (snd (sigaddset (snd sigemptyset) sig)) Posix.unblockable).
  repeat split; f_equal; apply Z.bits_inj'; intros n _;
    rewrite ?Z.ldiff_spec, ?Z.lor_spec, ?Z.ldiff_spec, ?Z.lor_spec;
    destruct (Z.testbit m n), (Z.testbit req n); reflexivity.
Qed.

(** ** Signal numbers at the edges *)



Lemma start_success_binds_handle_witness :
  isStarted_ fresh_object = false
  /\ exec Posix.os pthread_create Posix.boot =
     Some ((0, Some 2),
           Posix.set_others [(2, Posix.new_thread Posix.boot)] Posix.boot)
  /\ run Posix.os start fresh_object Posix.boot =
     ([Ev fresh_object pthread_create (Some (0, Some 2))],
      Some (true, {| isStarted_ := true; handle_ := 2 |},
            Posix.set_others [(2, Posix.new_thread Posix.boot)] Posix.boot)).
Proof.
  split; [reflexivity | split; [reflexivity |]].
  apply (start_success_binds_handle Posix.os fresh_object Posix.boot 2
           (Posix.set_others [(2, Posix.new_thread Posix.boot)] Posix.boot));
    reflexivity.
Defined.

Lemma stop_twice_second_is_noop_witness :
  run Posix.os stop started_object Posix.boot =
    ([Ev (constructor 2) (pthread_cancel 2) (Some ESRCH)],
     Some (false, constructor 2, Posix.boot))
  /\ isStarted_ (constructor 2) = false
  /\ run Posix.os stop (constructor 2) Posix.boot =
     ([], Some (false, constructor 2, Posix.boot)).
Proof.
  split; [reflexivity |].
  apply (stop_twice_second_is_noop Posix.os started_object Posix.boot
           [Ev (constructor 2) (pthread_cancel 2) (Some ESRCH)] false
           (constructor 2) Posix.boot).
  reflexivity.
Defined.

Lemma stop_then_start_creates_again_witness :
  isStarted_ started_object = true
  /\ run Posix.os stop_then_start started_object one_worker =
     ([Ev (set_isStarted_ false started_object) (pthread_cancel 2) (Some 0);
       Ev (set_isStarted_ false started_object) pthread_create (Some (0, Some 3))],
      Some ((true, true), {| isStarted_ := true; handle_ := 3 |},
            Posix.set_others
              [(3, Posix.idle_thread);
               (2, Posix.set_cancel_requested true Posix.idle_thread)]
              one_worker)).
Proof.
  split; [reflexivity |].
  apply (stop_then_start_creates_again Posix.os started_object one_worker 0
           (Posix.set_others
              [(2, Posix.set_cancel_requested true Posix.idle_thread)] one_worker)
           3
           (Posix.set_others
              [(3, Posix.idle_thread);
               (2, Posix.set_cancel_requested true Posix.idle_thread)]
              one_worker));
    reflexivity.
Defined.
